(** * manila/share/driver.py: the share driver base classes

    A shallow embedding of [ExecuteMixin] (the retrying command executor)
    and [ShareDriver] (the backend driver contract), with the properties
    the specification states about them.

    Python objects are records; a method is a function of [self] in a
    state-and-exception monad whose state survives a raise, as in Python.
    What the code does to its collaborators (the execute primitive, the
    logger, [time.sleep], the network service) is recorded as a
    chronological list of events. *)

From Stdlib Require Import ZArith List Sorted Lia.
From stdpp Require Import gmap strings list.
From Equations Require Import Equations.
From Equations.Prop Require Import Logic.
Import ListNotations.

Local Open Scope string_scope.
Local Open Scope list_scope.
Local Open Scope Z_scope.

(** ** Python values and exceptions *)

(** The values this module stores, passes and tests: [None], booleans,
    integers, strings and opaque caller-owned records (context, share,
    share server, ...) known by identity only. *)
Inductive value : Type :=
| VNone
| VBool (b : bool)
| VInt (z : Z)
| VStr (s : string)
| VObj (oid : positive).

(** Python truthiness ([if v:], [a or b]). An opaque record has the
    default truthiness of [object]. *)
Definition truthy (v : value) : bool :=
  match v with
  | VNone => false
  | VBool b => b
  | VInt z => negb (z =? 0)
  | VStr s => negb (String.eqb s "")
  | VObj _ => true
  end.

(** [a or b] *)
Definition py_or (a b : value) : value := if truthy a then a else b.

(** [v is None] *)
Definition is_None (v : value) : bool :=
  match v with VNone => true | _ => false end.

(** Exception classes. [ProcessExecutionError] stands for
    [exception.ProcessExecutionError] and its subclasses, the ones an
    [except exception.ProcessExecutionError] clause catches. *)
Inductive exn : Type :=
| ProcessExecutionError
| NotImplementedError
| AttributeError
| OtherError (cls : string).

(** [isinstance(e, exception.ProcessExecutionError)] *)
Definition is_ProcessExecutionError (e : exn) : bool :=
  match e with ProcessExecutionError => true | _ => false end.

(** ** The state-and-exception monad *)

Inductive result (A : Type) : Type :=
| Return (a : A)
| Raise (e : exn).
Arguments Return {A} a.
Arguments Raise {A} e.

Definition M (S A : Type) : Type := S -> result A * S.

Definition ret {S A} (a : A) : M S A := fun s => (Return a, s).

Definition raise {S A} (e : exn) : M S A := fun s => (Raise e, s).

Definition bind {S A B} (m : M S A) (k : A -> M S B) : M S B :=
  fun s =>
    match m s with
    | (Return a, s') => k a s'
    | (Raise e, s') => (Raise e, s')
    end.

Declare Scope py_scope.
Delimit Scope py_scope with py.
Notation "x <- c ;; k" := (bind c (fun x => k))
  (at level 100, c at next level, right associativity) : py_scope.

(** ** Observable events *)

Inductive event : Type :=
| EvExecute (command : list value) (kwargs : gmap string value)
| EvLogException (tries : Z)
| EvSleep (secs : Z)
| EvLogDebug (msg : string)
| EvNetAllocate (context share_server share_network : value)
    (kwargs : gmap string value)
| EvNetDeallocate (context share_server_id : value).

Definition is_execute (e : event) : bool :=
  match e with EvExecute _ _ => true | _ => false end.

Definition is_net_call (e : event) : bool :=
  match e with
  | EvNetAllocate _ _ _ _ | EvNetDeallocate _ _ => true
  | _ => false
  end.

(** How many times the execute primitive has been invoked in a trace. *)
Definition invocations (t : list event) : nat :=
  length (List.filter is_execute t).

(** The sleeps of a trace, in order. *)
Definition sleeps (t : list event) : list Z :=
  flat_map (fun e => match e with EvSleep n => [n] | _ => [] end) t.

(** The calls to the network service in a trace, in order. *)
Definition net_calls (t : list event) : list event :=
  List.filter is_net_call t.

(** ** Configuration *)

(** The options of [share_opts] the code reads, and the [config_group]
    attribute of the configuration object. *)
Record Configuration : Type := {
  num_shell_tries : Z;
  reserved_share_percentage : Z;
  share_backend_name : option string;
  network_config_group : option string;
  config_group : option string
}.

Definition of_opt_str (o : option string) : value :=
  match o with Some s => VStr s | None => VNone end.

(** Modelled from the spec: [Configuration.safe_get], defined in
    manila/share/configuration.py. The configuration is a mapping of
    option name to value; [safe_get] looks an option up by name and
    yields [None] for one that is absent. *)
Definition safe_get (c : Configuration) (name : string) : value :=
  if String.eqb name "num_shell_tries" then VInt (num_shell_tries c)
  else if String.eqb name "reserved_share_percentage"
       then VInt (reserved_share_percentage c)
  else if String.eqb name "share_backend_name"
       then of_opt_str (share_backend_name c)
  else if String.eqb name "network_config_group"
       then of_opt_str (network_config_group c)
  else VNone.

(** ** ExecuteMixin *)

Module ExecuteMixin.

(** What one invocation of the execute primitive does: it returns
    (stdout, stderr) or raises. *)
Inductive outcome : Type :=
| Returns (out err : string)
| Raises (e : exn).

(** The execute primitive is a black box outside this module. It is
    given by the outcome of its invocation with the given [command] and
    [kwargs] when [n] invocations came before. *)
Definition execute_fn : Type :=
  list value -> gmap string value -> nat -> outcome.

Record t : Type := {
  db : value;
  configuration : option Configuration;
  _execute : execute_fn
}.

(** [set_execute] *)
Definition set_execute (self : t) (execute : execute_fn) : t :=
  {| db := db self; configuration := configuration self;
     _execute := execute |}.

(** [__init__]: [kw_configuration] is [kwargs.get('configuration', None)]
    and [kw_execute] is the [execute] keyword, whose default is
    [utils.execute]. [append_config_values] registers option
    declarations with the configuration and changes no option value. *)
Definition __init__ (utils_execute : execute_fn)
    (kw_configuration : option Configuration)
    (kw_execute : option execute_fn) : t :=
  let self :=
    {| db := VNone; configuration := kw_configuration;
       _execute := utils_execute |} in
  set_execute self (default utils_execute kw_execute).

(** The call [self._execute] with the caller's [command] and [kwargs]. *)
Definition call_execute (self : t) (command : list value)
    (kwargs : gmap string value) : M (list event) (string * string) :=
  fun tr =>
    let tr' := tr ++ [EvExecute command kwargs] in
    match _execute self command kwargs (invocations tr) with
    | Returns out err => (Return (out, err), tr')
    | Raises e => (Raise e, tr')
    end.

(** The loop never runs past [num_shell_tries] failures: this is the
    number of failures still allowed after [tries] of them. *)
Definition tries_left (self : t) (tries : Z) : nat :=
  match configuration self with
  | Some c => Z.to_nat (num_shell_tries c - tries)
  | None => 0%nat
  end.

(** The [while True] loop of [_try_execute], entered with the local
    [tries]. *)
Equations? try_loop (self : t) (command : list value)
    (kwargs : gmap string value) (tries : Z) (tr : list event)
    : result value * list event by wf (tries_left self tries) lt :=
  try_loop self command kwargs tries tr
    with call_execute self command kwargs tr := {
    | (Return _, tr1) := (Return (VBool true), tr1);
    | (Raise e, tr1) with is_ProcessExecutionError e := {
      | false := (Raise e, tr1);
      | true with inspect (configuration self) := {
        | exist _ None Hc := (Raise AttributeError, tr1);
        | exist _ (Some c) Hc
            with inspect (tries + 1 >=? num_shell_tries c) := {
          | exist _ true Hge := (Raise e, tr1);
          | exist _ false Hge :=
              (* LOG.exception(..., tries); time.sleep(tries ** 2) *)
              try_loop self command kwargs (tries + 1)
                (tr1 ++ [EvLogException (tries + 1);
                         EvSleep ((tries + 1) ^ 2)]) } } } }.
Proof.
  unfold tries_left. rewrite Hc.
  rewrite Z.geb_leb in Hge. apply Z.leb_gt in Hge. lia.
Qed.

(** [_try_execute], with [command] the positional and [kwargs] the
    keyword arguments. *)
Definition _try_execute (self : t) (command : list value)
    (kwargs : gmap string value) : M (list event) value :=
  try_loop self command kwargs 0.

(** The events of a failed attempt that is retried: the invocation, the
    log entry with the number [n] of the failure, and the sleep before
    the next attempt. *)
Definition failed_round (command : list value)
    (kwargs : gmap string value) (n : Z) : list event :=
  [EvExecute command kwargs; EvLogException n; EvSleep (n ^ 2)].

(** [k] such attempts in a row, after [tries] earlier failures. *)
Fixpoint failed_rounds (command : list value)
    (kwargs : gmap string value) (tries : Z) (k : nat) : list event :=
  match k with
  | O => []
  | S k' =>
      failed_round command kwargs (tries + 1)
        ++ failed_rounds command kwargs (tries + 1) k'
  end.

(** What the loop hands to its caller when it stops at an invocation
    with outcome [o]. A ProcessExecutionError stops the loop only at the
    limit, or by the failed read of [num_shell_tries] on a missing
    configuration. *)
Definition final_result (self : t) (o : outcome) : result value :=
  match o with
  | Returns _ _ => Return (VBool true)
  | Raises e =>
      if is_ProcessExecutionError e then
        match configuration self with
        | Some _ => Raise e
        | None => Raise AttributeError
        end
      else Raise e
  end.

(** The time slept in a trace. *)
Definition total_sleep (tr : list event) : Z :=
  fold_right Z.add 0 (sleeps tr).

End ExecuteMixin.

(** ** The network service *)

Module Network.

(** [network.API] is an external collaborator. An instance is given by
    the group name it was built with and by what its two operations do
    when called: return ([None]) or raise. *)
Record API : Type := {
  config_group_name : value;
  allocate_network_raises :
    value -> value -> value -> gmap string value -> option exn;
  deallocate_network_raises : value -> value -> option exn
}.

End Network.

(** ** ShareDriver *)

Module ShareDriver.

(** The instance attributes. [_stats] is [None] while the attribute has
    never been assigned. *)
Record t : Type := {
  configuration : option Configuration;
  network_api : Network.API;
  _stats : option (gmap string value)
}.

(** The driver object together with the trace of what it did to its
    collaborators. *)
Record world : Type := {
  self : t;
  events : list event
}.

Definition emit (e : event) : M world unit :=
  fun w => (Return tt, {| self := self w; events := events w ++ [e] |}).

(** [__init__]: [network_API] is the constructor [network.API] and
    [kw_configuration] is [kwargs.get('configuration', None)]. No
    statement of it assigns [_stats]. *)
Definition __init__ (network_API : value -> Network.API)
    (kw_configuration : option Configuration) : t :=
  let network_config_group :=
    match kw_configuration with
    | Some c =>
        py_or (of_opt_str (network_config_group c))
              (of_opt_str (config_group c))
    | None => VNone
    end in
  {| configuration := kw_configuration;
     network_api := network_API network_config_group;
     _stats := None |}.

(** The methods that the code of this class calls through [self], which
    a backend may override. *)
Record vtable : Type := {
  v_get_network_allocations_number : M world value;
  v_update_share_status : M world value
}.

Definition create_share (context share share_server : value)
    : M world value :=
  raise NotImplementedError.

Definition create_share_from_snapshot
    (context share snapshot share_server : value) : M world value :=
  raise NotImplementedError.

Definition create_snapshot (context snapshot share_server : value)
    : M world value :=
  raise NotImplementedError.

Definition delete_share (context share share_server : value)
    : M world value :=
  raise NotImplementedError.

Definition delete_snapshot (context snapshot share_server : value)
    : M world value :=
  raise NotImplementedError.

Definition ensure_share (context share share_server : value)
    : M world value :=
  raise NotImplementedError.

Definition allow_access (context share access share_server : value)
    : M world value :=
  raise NotImplementedError.

Definition deny_access (context share access share_server : value)
    : M world value :=
  raise NotImplementedError.

Definition check_for_setup_error : M world value :=
  ret VNone.

Definition do_setup (context : value) : M world value :=
  ret VNone.

(** Reading [self._stats]: the stored dictionary itself, not a copy. *)
Definition read_stats : M world (gmap string value) :=
  fun w =>
    match _stats (self w) with
    | Some d => (Return d, w)
    | None => (Raise AttributeError, w)
    end.

(** The assignment [self._stats = data]. *)
Definition write_stats (data : gmap string value) : M world unit :=
  fun w =>
    (Return tt,
     {| self := {| configuration := configuration (self w);
                   network_api := network_api (self w);
                   _stats := Some data |};
        events := events w |}).

Definition get_share_stats (cls : vtable) (refresh : value)
    : M world (gmap string value) :=
  (_ <- (if truthy refresh then v_update_share_status cls
         else ret VNone) ;;
   read_stats)%py.

Definition get_network_allocations_number : M world value :=
  raise NotImplementedError.

(** [self.network_api.allocate_network(context, share_server,
    share_network, **kwargs)] *)
Definition call_allocate_network
    (context share_server share_network : value)
    (kwargs : gmap string value) : M world value :=
  (_ <- emit (EvNetAllocate context share_server share_network kwargs) ;;
   fun w =>
     match Network.allocate_network_raises (network_api (self w))
             context share_server share_network kwargs with
     | None => (Return VNone, w)
     | Some e => (Raise e, w)
     end)%py.

(** [self.network_api.deallocate_network(context, share_server_id)] *)
Definition call_deallocate_network (context share_server_id : value)
    : M world value :=
  (_ <- emit (EvNetDeallocate context share_server_id) ;;
   fun w =>
     match Network.deallocate_network_raises (network_api (self w))
             context share_server_id with
     | None => (Return VNone, w)
     | Some e => (Raise e, w)
     end)%py.

(** [count] is [VNone] when the caller gives none; [kwargs] are the
    extra keyword arguments. *)
Definition allocate_network (cls : vtable)
    (context share_server share_network count : value)
    (kwargs : gmap string value) : M world value :=
  (count <- (if is_None count then v_get_network_allocations_number cls
             else ret count) ;;
   if truthy count then
     let kwargs := <["count" := count]> kwargs in
     _ <- call_allocate_network context share_server share_network
            kwargs ;;
     ret VNone
   else ret VNone)%py.

Definition deallocate_network (cls : vtable)
    (context share_server_id : value) : M world value :=
  (n <- v_get_network_allocations_number cls ;;
   if truthy n then
     _ <- call_deallocate_network context share_server_id ;;
     ret VNone
   else ret VNone)%py.

Definition setup_server (network_info metadata : value) : M world value :=
  ret VNone.

Definition teardown_server (server_details security_services : value)
    : M world value :=
  ret VNone.

(** [self.configuration.safe_get(name)]; there is no such attribute on
    [None]. *)
Definition configuration_safe_get (name : string) : M world value :=
  fun w =>
    match configuration (self w) with
    | Some c => (Return (safe_get c name), w)
    | None => (Raise AttributeError, w)
    end.

Definition _update_share_status : M world value :=
  (_ <- emit (EvLogDebug "Updating share status") ;;
   let data : gmap string value := ∅ in
   backend_name <- configuration_safe_get "share_backend_name" ;;
   let data :=
     <["share_backend_name" := py_or backend_name (VStr "Generic_NFS")]>
       data in
   let data := <["vendor_name" := VStr "Open Source"]> data in
   let data := <["driver_version" := VStr "1.0"]> data in
   let data := <["storage_protocol" := VNone]> data in
   let data := <["total_capacity_gb" := VStr "infinite"]> data in
   let data := <["free_capacity_gb" := VStr "infinite"]> data in
   let data := <["reserved_percentage" := VInt 0]> data in
   let data := <["QoS_support" := VBool false]> data in
   _ <- write_stats data ;;
   ret VNone)%py.

(** The class itself: nothing overridden. *)
Definition base : vtable :=
  {| v_get_network_allocations_number := get_network_allocations_number;
     v_update_share_status := _update_share_status |}.

(** A backend's [get_network_allocations_number] returns [v], and does
    not itself call the network service. *)
Definition allocations_number_is (cls : vtable) (v : value) : Prop :=
  forall w, exists w',
    v_get_network_allocations_number cls w = (Return v, w')
    /\ net_calls (events w') = net_calls (events w).

(** A backend's [get_network_allocations_number] leaves [_stats] as it
    is. *)
Definition allocations_number_keeps_stats (cls : vtable) : Prop :=
  forall w,
    _stats (self (snd (v_get_network_allocations_number cls w)))
    = _stats (self w).

End ShareDriver.

(** ** Concrete inputs *)

Module Examples.

Definition conf3 : Configuration :=
  {| num_shell_tries := 3; reserved_share_percentage := 25;
     share_backend_name := None; network_config_group := None;
     config_group := Some "backend1" |}.

(** A primitive that fails transiently at every invocation. *)
Definition always_failing : ExecuteMixin.execute_fn :=
  fun _ _ _ => ExecuteMixin.Raises ProcessExecutionError.

(** A primitive that fails transiently [k] times and then succeeds. *)
Definition flaky (k : nat) : ExecuteMixin.execute_fn :=
  fun _ _ n =>
    if (n <? k)%nat then ExecuteMixin.Raises ProcessExecutionError
    else ExecuteMixin.Returns "ok" "".

(** A primitive that fails with another class of exception. *)
Definition broken : ExecuteMixin.execute_fn :=
  fun _ _ _ => ExecuteMixin.Raises (OtherError "OSError").

(** A primitive that returns at every invocation, for [utils.execute]. *)
Definition utils_execute : ExecuteMixin.execute_fn :=
  fun _ _ _ => ExecuteMixin.Returns "" "".

Definition executor (execute : ExecuteMixin.execute_fn) : ExecuteMixin.t :=
  ExecuteMixin.__init__ utils_execute (Some conf3) (Some execute).

(** The same with [num_shell_tries = 1], and with no configuration. *)
Definition conf1 : Configuration :=
  {| num_shell_tries := 1; reserved_share_percentage := 0;
     share_backend_name := Some "nas1"; network_config_group := None;
     config_group := None |}.

Definition executor1 (execute : ExecuteMixin.execute_fn)
    : ExecuteMixin.t :=
  ExecuteMixin.__init__ utils_execute (Some conf1) (Some execute).

Definition executor0 (execute : ExecuteMixin.execute_fn)
    : ExecuteMixin.t :=
  ExecuteMixin.__init__ utils_execute None (Some execute).

Definition ls : list value := [VStr "ls"; VStr "/shares"].

(** A primitive that fails transiently [k] times and then fails with
    another class of exception. *)
Definition flaky_then_broken (k : nat) : ExecuteMixin.execute_fn :=
  fun _ _ n =>
    if (n <? k)%nat then ExecuteMixin.Raises ProcessExecutionError
    else ExecuteMixin.Raises (OtherError "OSError").

(** [num_shell_tries = 0]. *)
Definition conf0 : Configuration :=
  {| num_shell_tries := 0; reserved_share_percentage := 0;
     share_backend_name := Some ""; network_config_group := Some "";
     config_group := Some "backend0" |}.

(** A network service whose operations return. *)
Definition quiet_API (group : value) : Network.API :=
  {| Network.config_group_name := group;
     Network.allocate_network_raises := fun _ _ _ _ => None;
     Network.deallocate_network_raises := fun _ _ => None |}.

(** A backend that overrides [get_network_allocations_number] to return
    [n]. *)
Definition backend (n : Z) : ShareDriver.vtable :=
  {| ShareDriver.v_get_network_allocations_number := ret (VInt n);
     ShareDriver.v_update_share_status :=
       ShareDriver._update_share_status |}.

(** A network service whose operations raise. *)
Definition failing_API (group : value) : Network.API :=
  {| Network.config_group_name := group;
     Network.allocate_network_raises :=
       fun _ _ _ _ => Some (OtherError "NetworkException");
     Network.deallocate_network_raises :=
       fun _ _ => Some (OtherError "NetworkException") |}.

(** Drivers just built with [conf1], with [conf0], with [conf3] over the
    failing service, and without a configuration. *)
Definition fresh1 : ShareDriver.world :=
  {| ShareDriver.self := ShareDriver.__init__ quiet_API (Some conf1);
     ShareDriver.events := [] |}.

Definition fresh0 : ShareDriver.world :=
  {| ShareDriver.self := ShareDriver.__init__ quiet_API (Some conf0);
     ShareDriver.events := [] |}.

Definition fresh_failing : ShareDriver.world :=
  {| ShareDriver.self := ShareDriver.__init__ failing_API (Some conf3);
     ShareDriver.events := [] |}.

Definition bare : ShareDriver.world :=
  {| ShareDriver.self := ShareDriver.__init__ quiet_API None;
     ShareDriver.events := [] |}.

(** A driver just built with [conf3]. *)
Definition fresh : ShareDriver.world :=
  {| ShareDriver.self := ShareDriver.__init__ quiet_API (Some conf3);
     ShareDriver.events := [] |}.

End Examples.

(** * Properties of ExecuteMixin *)

Section ExecuteMixinProperties.
Import ExecuteMixin.

Lemma invocations_app (tr1 tr2 : list event) :
  invocations (tr1 ++ tr2) = (invocations tr1 + invocations tr2)%nat.
Proof.
  unfold invocations. rewrite List.filter_app, length_app. reflexivity.
Qed.

Lemma sleeps_app (tr1 tr2 : list event) :
  sleeps (tr1 ++ tr2) = sleeps tr1 ++ sleeps tr2.
Proof. unfold sleeps. apply flat_map_app. Qed.

(** One turn of the loop, as the source has it. *)
Lemma try_loop_unfold self command kwargs tries tr :
  try_loop self command kwargs tries tr =
  match call_execute self command kwargs tr with
  | (Return _, tr1) => (Return (VBool true), tr1)
  | (Raise e, tr1) =>
      if is_ProcessExecutionError e then
        match configuration self with
        | None => (Raise AttributeError, tr1)
        | Some c =>
            if tries + 1 >=? num_shell_tries c then (Raise e, tr1)
            else try_loop self command kwargs (tries + 1)
                   (tr1 ++ [EvLogException (tries + 1);
                            EvSleep ((tries + 1) ^ 2)])
        end
      else (Raise e, tr1)
  end.
Proof.
  simp try_loop.
  destruct (call_execute self command kwargs tr) as [[a|e] tr1]; simpl.
  - reflexivity.
  - destruct (is_ProcessExecutionError e); simpl; [|reflexivity].
    destruct (configuration self) as [c|]; [|reflexivity].
    destruct (tries + 1 >=? num_shell_tries c); reflexivity.
Qed.

Lemma invocations_failed_rounds command kwargs tries k :
  invocations (failed_rounds command kwargs tries k) = k.
Proof.
  revert tries. induction k as [|k IH]; intros tries; [reflexivity|].
  cbn [failed_rounds]. rewrite invocations_app, IH. reflexivity.
Qed.

Lemma sleeps_failed_rounds command kwargs tries k :
  sleeps (failed_rounds command kwargs tries k) =
  map (fun i => (tries + Z.of_nat i) ^ 2) (seq 1 k).
Proof.
  revert tries. induction k as [|k IH]; intros tries; [reflexivity|].
  cbn [failed_rounds]. rewrite sleeps_app, IH.
  cbn [seq map]. rewrite <- (seq_shift k 1), map_map.
  cbn [failed_round sleeps flat_map app].
  f_equal. apply map_ext. intros i. f_equal. lia.
Qed.

(** Runs of the loop on concrete inputs. *)
Example try_execute_flaky_once :
  _try_execute (Examples.executor (Examples.flaky 1)) Examples.ls ∅ []
  = (Return (VBool true),
     [EvExecute Examples.ls ∅; EvLogException 1; EvSleep 1;
      EvExecute Examples.ls ∅]).
Proof. vm_compute. reflexivity. Qed.

Example try_execute_single_try :
  _try_execute (Examples.executor1 Examples.always_failing)
    Examples.ls ∅ []
  = (Raise ProcessExecutionError, [EvExecute Examples.ls ∅]).
Proof. vm_compute. reflexivity. Qed.

Example try_execute_no_configuration :
  _try_execute (Examples.executor0 Examples.always_failing)
    Examples.ls ∅ []
  = (Raise AttributeError, [EvExecute Examples.ls ∅]).
Proof. vm_compute. reflexivity. Qed.

(** Consecutive squares increase. *)
Lemma squares_increasing (a m : nat) :
  StronglySorted Z.lt (map (fun n => Z.of_nat n ^ 2) (seq a m)).
Proof.
  revert a. induction m as [|m IH]; intros a; cbn [seq map].
  - constructor.
  - constructor; [apply IH|].
    apply List.Forall_forall. intros x Hx.
    apply List.in_map_iff in Hx as (j & <- & Hj).
    apply List.in_seq in Hj. apply Z.pow_lt_mono_l; lia.
Qed.

(** [k] transient failures that leave the limit unreached are [k] turns
    of the loop. *)
Lemma try_loop_failed_rounds self c command kwargs k :
  configuration self = Some c ->
  forall tries tr,
    (forall i, (i < k)%nat ->
       _execute self command kwargs (invocations tr + i)%nat
       = Raises ProcessExecutionError) ->
    tries + Z.of_nat k < num_shell_tries c ->
    try_loop self command kwargs tries tr =
    try_loop self command kwargs (tries + Z.of_nat k)
      (tr ++ failed_rounds command kwargs tries k).
Proof.
  intros Hc. induction k as [|k IH]; intros tries tr Hfail Hlim.
  - cbn. rewrite Z.add_0_r, app_nil_r. reflexivity.
  - rewrite try_loop_unfold. unfold call_execute.
    rewrite <- (Nat.add_0_r (invocations tr)) at 1.
    rewrite Hfail by lia. cbn [is_ProcessExecutionError]. rewrite Hc.
    destruct (Z.geb_spec (tries + 1) (num_shell_tries c)) as [Hge|_];
      [lia|].
    rewrite IH.
    + cbn [failed_rounds failed_round]. rewrite <- !app_assoc. cbn.
      f_equal. lia.
    + intros i Hi. rewrite !invocations_app. cbn.
      replace (invocations tr + 1 + 0 + i)%nat
        with (invocations tr + S i)%nat by lia.
      apply Hfail. lia.
    + lia.
Qed.

(** Whatever the primitive does, a run of the loop is a number of
    failed attempts followed by one last invocation. *)
Lemma try_loop_shape self command kwargs tries tr :
  exists (m : nat) (r : result value),
    try_loop self command kwargs tries tr =
    (r, tr ++ failed_rounds command kwargs tries m
           ++ [EvExecute command kwargs]).
Proof.
  remember (tries_left self tries) as n eqn:Hn.
  revert tries tr Hn.
  induction n as [n IH] using lt_wf_ind. intros tries tr Hn.
  rewrite try_loop_unfold. unfold call_execute.
  destruct (_execute self command kwargs (invocations tr))
    as [out err|e].
  { exists 0%nat. eexists. reflexivity. }
  destruct (is_ProcessExecutionError e).
  2:{ exists 0%nat. eexists. reflexivity. }
  destruct (configuration self) as [c|] eqn:Hc.
  2:{ exists 0%nat. eexists. reflexivity. }
  destruct (Z.geb_spec (tries + 1) (num_shell_tries c)) as [Hge|Hlt].
  { exists 0%nat. eexists. reflexivity. }
  edestruct (IH (tries_left self (tries + 1))) as (m & r & Hrun);
    [|reflexivity|].
  { subst n. unfold tries_left. rewrite Hc. lia. }
  exists (S m), r. rewrite Hrun. cbn [failed_rounds failed_round].
  rewrite <- !app_assoc. reflexivity.
Qed.

(** C1 (retry bound). With [num_shell_tries = N >= 1]: when the execute
    primitive raises ProcessExecutionError at every invocation,
    [_try_execute] invokes it exactly N times and the
    ProcessExecutionError reaches the caller; when it raises
    ProcessExecutionError K < N times and then returns, [_try_execute]
    returns True after exactly K + 1 invocations. *)
Theorem try_execute_retry_bound self c command kwargs tr :
  configuration self = Some c ->
  1 <= num_shell_tries c ->
  ((forall i, _execute self command kwargs (invocations tr + i)%nat
              = Raises ProcessExecutionError) ->
   exists tr',
     _try_execute self command kwargs tr
     = (Raise ProcessExecutionError, tr ++ tr')
     /\ Z.of_nat (invocations tr') = num_shell_tries c)
  /\
  (forall (K : nat) out err,
     Z.of_nat K < num_shell_tries c ->
     (forall i, (i < K)%nat ->
        _execute self command kwargs (invocations tr + i)%nat
        = Raises ProcessExecutionError) ->
     _execute self command kwargs (invocations tr + K)%nat
     = Returns out err ->
     exists tr',
       _try_execute self command kwargs tr
       = (Return (VBool true), tr ++ tr')
       /\ invocations tr' = S K).
Proof.
  intros Hc HN. unfold _try_execute. split.
  - intros Hfail.
    set (k := Z.to_nat (num_shell_tries c - 1)).
    exists (failed_rounds command kwargs 0 k ++ [EvExecute command kwargs]).
    split.
    + rewrite (try_loop_failed_rounds self c command kwargs k Hc)
        by (intros; auto || lia).
      rewrite try_loop_unfold. unfold call_execute.
      rewrite invocations_app, invocations_failed_rounds, Hfail.
      cbn [is_ProcessExecutionError]. rewrite Hc.
      destruct (Z.geb_spec (0 + Z.of_nat k + 1) (num_shell_tries c));
        [|lia].
      rewrite <- app_assoc. reflexivity.
    + rewrite invocations_app, invocations_failed_rounds. cbn. lia.
  - intros K out err HK Hfail Hok.
    exists (failed_rounds command kwargs 0 K ++ [EvExecute command kwargs]).
    split.
    + rewrite (try_loop_failed_rounds self c command kwargs K Hc)
        by (auto || lia).
      rewrite try_loop_unfold. unfold call_execute.
      rewrite invocations_app, invocations_failed_rounds, Hok.
      rewrite <- app_assoc. reflexivity.
    + rewrite invocations_app, invocations_failed_rounds. cbn. lia.
Qed.

Lemma try_execute_retry_bound_witness :
  (exists tr',
     _try_execute (Examples.executor Examples.always_failing)
       Examples.ls ∅ []
     = (Raise ProcessExecutionError, [] ++ tr')
     /\ Z.of_nat (invocations tr') = 3)
  /\
  (exists tr',
     _try_execute (Examples.executor (Examples.flaky 2))
       Examples.ls ∅ []
     = (Return (VBool true), [] ++ tr')
     /\ invocations tr' = 3%nat).
Proof.
  split.
  - apply (proj1 (try_execute_retry_bound
                    (Examples.executor Examples.always_failing)
                    Examples.conf3 Examples.ls ∅ []
                    eq_refl ltac:(cbn; lia))).
    intros i. reflexivity.
  - apply (proj2 (try_execute_retry_bound
                    (Examples.executor (Examples.flaky 2))
                    Examples.conf3 Examples.ls ∅ []
                    eq_refl ltac:(cbn; lia)) 2%nat "ok" "").
    + cbn. lia.
    + intros i Hi. cbn. unfold Examples.flaky.
      destruct (Nat.ltb_spec i 2); [reflexivity | lia].
    + reflexivity.
Defined.

(** C2 (backoff). In every run of [_try_execute] the events are a
    number m of failed attempts, each followed by its log entry and its
    sleep, and one last invocation; the sleep before retry attempt n
    (after the n-th failure) is n squared, so the sleeps are 1, 4, ...,
    m squared, a strictly increasing sequence. With [num_shell_tries = 3]
    and a primitive that always raises ProcessExecutionError, the sleeps
    are 1 before the second attempt and 4 before the third. *)
Theorem try_execute_backoff self command kwargs tr :
  (exists (m : nat) (r : result value) (tr' : list event),
     _try_execute self command kwargs tr = (r, tr ++ tr')
     /\ tr' = failed_rounds command kwargs 0 m
               ++ [EvExecute command kwargs]
     /\ sleeps tr' = map (fun n => Z.of_nat n ^ 2) (seq 1 m)
     /\ StronglySorted Z.lt (sleeps tr'))
  /\
  (forall c,
     configuration self = Some c ->
     num_shell_tries c = 3 ->
     (forall i, _execute self command kwargs (invocations tr + i)%nat
                = Raises ProcessExecutionError) ->
     _try_execute self command kwargs tr
     = (Raise ProcessExecutionError,
        tr ++ [EvExecute command kwargs; EvLogException 1; EvSleep 1;
               EvExecute command kwargs; EvLogException 2; EvSleep 4;
               EvExecute command kwargs])).
Proof.
  split.
  - destruct (try_loop_shape self command kwargs 0 tr) as (m & r & Hrun).
    exists m, r. eexists. split; [exact Hrun|]. split; [reflexivity|].
    assert (Hs : sleeps (failed_rounds command kwargs 0 m
                         ++ [EvExecute command kwargs])
                 = map (fun n => Z.of_nat n ^ 2) (seq 1 m)).
    { rewrite sleeps_app, sleeps_failed_rounds. cbn [sleeps flat_map].
      rewrite app_nil_r. reflexivity. }
    split; [exact Hs|]. rewrite Hs. apply squares_increasing.
  - intros c Hc HN Hfail. unfold _try_execute.
    rewrite (try_loop_failed_rounds self c command kwargs 2 Hc)
      by (auto || lia).
    rewrite try_loop_unfold. unfold call_execute.
    rewrite invocations_app, invocations_failed_rounds, Hfail.
    cbn [is_ProcessExecutionError]. rewrite Hc, HN. cbn.
    rewrite <- app_assoc. reflexivity.
Qed.

Lemma try_execute_backoff_witness :
  _try_execute (Examples.executor Examples.always_failing)
    Examples.ls ∅ []
  = (Raise ProcessExecutionError,
     [] ++ [EvExecute Examples.ls ∅; EvLogException 1; EvSleep 1;
            EvExecute Examples.ls ∅; EvLogException 2; EvSleep 4;
            EvExecute Examples.ls ∅]).
Proof.
  apply (proj2 (try_execute_backoff
                  (Examples.executor Examples.always_failing)
                  Examples.ls ∅ []) Examples.conf3);
    [reflexivity | reflexivity | intros i; reflexivity].
Defined.

(** C3 (fail fast). When the first invocation of the execute primitive
    raises an exception that is not a ProcessExecutionError,
    [_try_execute] invokes the primitive once only and lets that
    exception reach the caller, whatever [num_shell_tries] is (and
    whether or not there is a configuration at all). *)
Theorem try_execute_fail_fast self command kwargs tr e :
  is_ProcessExecutionError e = false ->
  _execute self command kwargs (invocations tr) = Raises e ->
  _try_execute self command kwargs tr
  = (Raise e, tr ++ [EvExecute command kwargs])
  /\ invocations (snd (_try_execute self command kwargs tr))
     = S (invocations tr).
Proof.
  intros He Hraise.
  assert (Hrun : _try_execute self command kwargs tr
                 = (Raise e, tr ++ [EvExecute command kwargs])).
  { unfold _try_execute. rewrite try_loop_unfold. unfold call_execute.
    rewrite Hraise, He. reflexivity. }
  split; [exact Hrun|].
  rewrite Hrun. cbn [snd]. rewrite invocations_app. cbn. lia.
Qed.

Lemma try_execute_fail_fast_witness :
  _try_execute (Examples.executor Examples.broken) Examples.ls ∅ []
  = (Raise (OtherError "OSError"), [] ++ [EvExecute Examples.ls ∅])
  /\ invocations
       (snd (_try_execute (Examples.executor Examples.broken)
               Examples.ls ∅ []))
     = 1%nat.
Proof.
  apply (try_execute_fail_fast (Examples.executor Examples.broken)
           Examples.ls ∅ [] (OtherError "OSError"));
    reflexivity.
Defined.

End ExecuteMixinProperties.

(** * Properties of ShareDriver *)

Section ShareDriverProperties.
Import ShareDriver.

Lemma net_calls_app (tr1 tr2 : list event) :
  net_calls (tr1 ++ tr2) = net_calls tr1 ++ net_calls tr2.
Proof. unfold net_calls. apply List.filter_app. Qed.

(** What a call of the allocation service leaves behind. *)
Lemma call_allocate_network_world context share_server share_network
    kwargs w :
  snd (call_allocate_network context share_server share_network kwargs w)
  = {| self := self w;
       events := events w ++ [EvNetAllocate context share_server
                                share_network kwargs] |}.
Proof.
  unfold call_allocate_network, bind, emit. cbn.
  destruct (Network.allocate_network_raises _ _ _ _ _); reflexivity.
Qed.

Lemma call_deallocate_network_world context share_server_id w :
  snd (call_deallocate_network context share_server_id w)
  = {| self := self w;
       events := events w ++ [EvNetDeallocate context share_server_id] |}.
Proof.
  unfold call_deallocate_network, bind, emit. cbn.
  destruct (Network.deallocate_network_raises _ _ _); reflexivity.
Qed.

(** [allocate_network] without a count, after the hook returned [v]. *)
Lemma allocate_network_after_hook cls context share_server share_network
    kwargs w v w1 :
  v_get_network_allocations_number cls w = (Return v, w1) ->
  snd (allocate_network cls context share_server share_network VNone
         kwargs w)
  = if truthy v
    then snd (call_allocate_network context share_server share_network
                (<["count" := v]> kwargs) w1)
    else w1.
Proof.
  intros Hhook. unfold allocate_network, bind. cbn [is_None].
  rewrite Hhook. destruct (truthy v); [|reflexivity].
  destruct (call_allocate_network _ _ _ _ _) as [[?|?] ?]; reflexivity.
Qed.

(** A refresh on a driver that has a configuration: what it returns,
    what it leaves behind, and what the snapshot holds under each key. *)
Lemma update_share_status_run w c :
  configuration (self w) = Some c ->
  exists data,
    _update_share_status w
    = (Return VNone,
       {| self := {| configuration := configuration (self w);
                     network_api := network_api (self w);
                     _stats := Some data |};
          events := events w ++ [EvLogDebug "Updating share status"] |})
    /\ data !! "share_backend_name"
       = Some (py_or (of_opt_str (share_backend_name c))
                     (VStr "Generic_NFS"))
    /\ data !! "vendor_name" = Some (VStr "Open Source")
    /\ data !! "driver_version" = Some (VStr "1.0")
    /\ data !! "storage_protocol" = Some VNone
    /\ data !! "total_capacity_gb" = Some (VStr "infinite")
    /\ data !! "free_capacity_gb" = Some (VStr "infinite")
    /\ data !! "reserved_percentage" = Some (VInt 0)
    /\ data !! "QoS_support" = Some (VBool false).
Proof.
  intros Hc. eexists. split.
  - unfold _update_share_status, bind, emit, configuration_safe_get,
      write_stats, ret.
    destruct w as [[cf api st] ev]. cbn in Hc |- *. subst cf.
    reflexivity.
  - cbn [safe_get String.eqb Ascii.eqb Bool.eqb].
    repeat split; by simplify_map_eq.
Qed.

Lemma get_share_stats_refresh w data w' :
  _update_share_status w = (Return VNone, w') ->
  _stats (self w') = Some data ->
  get_share_stats base (VBool true) w = (Return data, w').
Proof.
  intros Hrun Hstats. unfold get_share_stats, bind, read_stats.
  cbn [truthy base v_update_share_status]. rewrite Hrun, Hstats.
  reflexivity.
Qed.

(** C4 (allocation guard). For a driver whose
    [get_network_allocations_number] returns 0, [allocate_network]
    called without a count and [deallocate_network] both return without
    a call to the network service, and so does one after the other. *)
Theorem allocation_guard cls context share_server share_network kwargs
    share_server_id w :
  allocations_number_is cls (VInt 0) ->
  let a := allocate_network cls context share_server share_network VNone
             kwargs w in
  let d := deallocate_network cls context share_server_id w in
  let ad := deallocate_network cls context share_server_id (snd a) in
  (fst a = Return VNone /\ net_calls (events (snd a)) = net_calls (events w))
  /\ (fst d = Return VNone
      /\ net_calls (events (snd d)) = net_calls (events w))
  /\ net_calls (events (snd ad)) = net_calls (events w).
Proof.
  intros Hzero.
  assert (Ha : forall w0,
    let a := allocate_network cls context share_server share_network
               VNone kwargs w0 in
    fst a = Return VNone
    /\ net_calls (events (snd a)) = net_calls (events w0)).
  { intros w0. destruct (Hzero w0) as (w1 & Hhook & Hnet).
    cbv zeta. unfold allocate_network, bind. cbn [is_None].
    rewrite Hhook. cbn. auto. }
  assert (Hd : forall w0,
    let d := deallocate_network cls context share_server_id w0 in
    fst d = Return VNone
    /\ net_calls (events (snd d)) = net_calls (events w0)).
  { intros w0. destruct (Hzero w0) as (w1 & Hhook & Hnet).
    cbv zeta. unfold deallocate_network, bind.
    rewrite Hhook. cbn. auto. }
  cbv zeta. split; [apply Ha|]. split; [apply Hd|].
  rewrite (proj2 (Hd _)). apply Ha.
Qed.

Lemma allocation_guard_witness :
  let a := allocate_network (Examples.backend 0) (VObj 1) (VObj 2)
             (VObj 3) VNone ∅ Examples.fresh in
  let d := deallocate_network (Examples.backend 0) (VObj 1) (VStr "srv")
             Examples.fresh in
  let ad := deallocate_network (Examples.backend 0) (VObj 1) (VStr "srv")
              (snd a) in
  (fst a = Return VNone
   /\ net_calls (events (snd a)) = net_calls (events Examples.fresh))
  /\ (fst d = Return VNone
      /\ net_calls (events (snd d)) = net_calls (events Examples.fresh))
  /\ net_calls (events (snd ad)) = net_calls (events Examples.fresh).
Proof.
  apply (allocation_guard (Examples.backend 0) (VObj 1) (VObj 2) (VObj 3)
           ∅ (VStr "srv") Examples.fresh).
  intros w. exists w. split; reflexivity.
Defined.

(** C5 (allocation count). For a driver whose
    [get_network_allocations_number] returns an integer n other than 0,
    [allocate_network] called without a count makes exactly one call to
    the network service: [allocate_network] with the caller's context,
    share server and share network, and with the caller's keyword
    arguments to which [count = n] has been added. *)
Theorem allocation_count cls n context share_server share_network kwargs
    w :
  allocations_number_is cls (VInt n) ->
  n <> 0 ->
  exists kwargs',
    net_calls (events (snd (allocate_network cls context share_server
                              share_network VNone kwargs w)))
    = net_calls (events w)
        ++ [EvNetAllocate context share_server share_network kwargs']
    /\ kwargs' = <["count" := VInt n]> kwargs
    /\ kwargs' !! "count" = Some (VInt n)
    /\ (forall k, k <> "count" -> kwargs' !! k = kwargs !! k).
Proof.
  intros Hn Hnz. destruct (Hn w) as (w1 & Hhook & Hnet).
  exists (<["count" := VInt n]> kwargs).
  split; [|split; [reflexivity|split]].
  - rewrite (allocate_network_after_hook _ _ _ _ _ _ _ _ Hhook).
    cbn [truthy]. destruct (Z.eqb_spec n 0) as [?|_]; [contradiction|].
    cbn [negb]. rewrite call_allocate_network_world. cbn [events].
    rewrite net_calls_app, Hnet. reflexivity.
  - apply lookup_insert_eq.
  - intros k Hk. apply lookup_insert_ne. congruence.
Qed.

Lemma allocation_count_witness :
  exists kwargs',
    net_calls (events (snd (allocate_network (Examples.backend 3)
                              (VObj 1) (VObj 2) (VObj 3) VNone
                              {["label" := VStr "x"]} Examples.fresh)))
    = net_calls (events Examples.fresh)
        ++ [EvNetAllocate (VObj 1) (VObj 2) (VObj 3) kwargs']
    /\ kwargs' = <["count" := VInt 3]> {["label" := VStr "x"]}
    /\ kwargs' !! "count" = Some (VInt 3)
    /\ (forall k, k <> "count" ->
        kwargs' !! k = ({["label" := VStr "x"]} : gmap string value) !! k).
Proof.
  apply (allocation_count (Examples.backend 3) 3 (VObj 1) (VObj 2)
           (VObj 3) {["label" := VStr "x"]} Examples.fresh).
  - intros w. exists w. split; reflexivity.
  - lia.
Defined.

(** C6 (stats default). On a driver whose configuration sets no
    [share_backend_name], [get_share_stats(refresh=True)] returns a
    snapshot with [share_backend_name] "Generic_NFS",
    [total_capacity_gb] and [free_capacity_gb] "infinite", [QoS_support]
    False, [vendor_name] "Open Source", [driver_version] "1.0" and
    [storage_protocol] None. *)
Theorem stats_default w c :
  configuration (self w) = Some c ->
  share_backend_name c = None ->
  exists data w',
    get_share_stats base (VBool true) w = (Return data, w')
    /\ data !! "share_backend_name" = Some (VStr "Generic_NFS")
    /\ data !! "total_capacity_gb" = Some (VStr "infinite")
    /\ data !! "free_capacity_gb" = Some (VStr "infinite")
    /\ data !! "QoS_support" = Some (VBool false)
    /\ data !! "vendor_name" = Some (VStr "Open Source")
    /\ data !! "driver_version" = Some (VStr "1.0")
    /\ data !! "storage_protocol" = Some VNone.
Proof.
  intros Hc Hname.
  destruct (update_share_status_run w c Hc)
    as (data & Hrun & Hbn & Hvn & Hdv & Hsp & Htc & Hfc & _ & Hqos).
  exists data. eexists. split.
  - apply (get_share_stats_refresh _ _ _ Hrun). reflexivity.
  - rewrite Hname in Hbn. cbn in Hbn. auto 10.
Qed.

Lemma stats_default_witness :
  exists data w',
    get_share_stats base (VBool true) Examples.fresh = (Return data, w')
    /\ data !! "share_backend_name" = Some (VStr "Generic_NFS")
    /\ data !! "total_capacity_gb" = Some (VStr "infinite")
    /\ data !! "free_capacity_gb" = Some (VStr "infinite")
    /\ data !! "QoS_support" = Some (VBool false)
    /\ data !! "vendor_name" = Some (VStr "Open Source")
    /\ data !! "driver_version" = Some (VStr "1.0")
    /\ data !! "storage_protocol" = Some VNone.
Proof.
  apply (stats_default Examples.fresh Examples.conf3); reflexivity.
Defined.

(** C7 (abstract operations). On the base class, each of [create_share],
    [create_share_from_snapshot], [create_snapshot], [delete_share],
    [delete_snapshot], [ensure_share], [allow_access], [deny_access] and
    [get_network_allocations_number] raises NotImplementedError, for all
    arguments and in every state, and changes nothing. *)
Theorem abstract_operations_not_implemented
    (context share snapshot access share_server : value) (w : world) :
  create_share context share share_server w
  = (Raise NotImplementedError, w)
  /\ create_share_from_snapshot context share snapshot share_server w
     = (Raise NotImplementedError, w)
  /\ create_snapshot context snapshot share_server w
     = (Raise NotImplementedError, w)
  /\ delete_share context share share_server w
     = (Raise NotImplementedError, w)
  /\ delete_snapshot context snapshot share_server w
     = (Raise NotImplementedError, w)
  /\ ensure_share context share share_server w
     = (Raise NotImplementedError, w)
  /\ allow_access context share access share_server w
     = (Raise NotImplementedError, w)
  /\ deny_access context share access share_server w
     = (Raise NotImplementedError, w)
  /\ get_network_allocations_number w = (Raise NotImplementedError, w)
  /\ v_get_network_allocations_number base w
     = (Raise NotImplementedError, w).
Proof. repeat split. Qed.

(** C8 (snapshot frame). For a driver whose
    [get_network_allocations_number] leaves [_stats] alone: a call
    [get_share_stats(refresh=False)] changes nothing, so that a second
    such call gives the same result as the first; and none of
    [allocate_network], [deallocate_network], [setup_server],
    [teardown_server], [do_setup] and [check_for_setup_error] changes
    [_stats]. *)
Theorem stats_frame cls :
  allocations_number_keeps_stats cls ->
  (forall w,
     snd (get_share_stats cls (VBool false) w) = w
     /\ get_share_stats cls (VBool false)
          (snd (get_share_stats cls (VBool false) w))
        = get_share_stats cls (VBool false) w)
  /\ (forall context share_server share_network count kwargs w,
        _stats (self (snd (allocate_network cls context share_server
                             share_network count kwargs w)))
        = _stats (self w))
  /\ (forall context share_server_id w,
        _stats (self (snd (deallocate_network cls context share_server_id
                             w)))
        = _stats (self w))
  /\ (forall network_info metadata w,
        snd (setup_server network_info metadata w) = w)
  /\ (forall server_details security_services w,
        snd (teardown_server server_details security_services w) = w)
  /\ (forall context w, snd (do_setup context w) = w)
  /\ (forall w, snd (check_for_setup_error w) = w).
Proof.
  intros Hkeep.
  assert (Hread : forall w,
            snd (get_share_stats cls (VBool false) w) = w).
  { intros w. unfold get_share_stats, bind, read_stats, ret.
    cbn [truthy]. destruct (_stats (self w)); reflexivity. }
  split; [|split; [|split; [|repeat split]]].
  - intros w. split; [apply Hread|]. rewrite Hread. reflexivity.
  - intros context share_server share_network count kwargs w.
    unfold allocate_network, bind, ret.
    destruct (is_None count).
    + specialize (Hkeep w).
      destruct (v_get_network_allocations_number cls w) as [[v|e] w1];
        cbn [snd] in Hkeep; [|exact Hkeep].
      destruct (truthy v); [|exact Hkeep].
      pose proof (call_allocate_network_world context share_server
                    share_network (<["count" := v]> kwargs) w1) as Hw.
      destruct (call_allocate_network _ _ _ _ _) as [[?|?] w2];
        cbn in Hw |- *; subst w2; exact Hkeep.
    + destruct (truthy count); [|reflexivity].
      pose proof (call_allocate_network_world context share_server
                    share_network (<["count" := count]> kwargs) w) as Hw.
      destruct (call_allocate_network _ _ _ _ _) as [[?|?] w2];
        cbn in Hw |- *; subst w2; reflexivity.
  - intros context share_server_id w.
    unfold deallocate_network, bind. specialize (Hkeep w).
    destruct (v_get_network_allocations_number cls w) as [[v|e] w1];
      cbn [snd] in Hkeep; [|exact Hkeep].
    destruct (truthy v); [|exact Hkeep].
    pose proof (call_deallocate_network_world context share_server_id w1)
      as Hw.
    destruct (call_deallocate_network _ _ _) as [[?|?] w2];
      cbn in Hw |- *; subst w2; exact Hkeep.
Qed.

Lemma stats_frame_witness :
  _stats (self (snd (allocate_network (Examples.backend 3) (VObj 1)
                       (VObj 2) (VObj 3) VNone ∅
                       (snd (get_share_stats (Examples.backend 3)
                               (VBool true) Examples.fresh)))))
  = _stats (self (snd (get_share_stats (Examples.backend 3) (VBool true)
                         Examples.fresh)))
  /\ _stats (self (snd (deallocate_network base (VObj 1) (VStr "srv")
                          Examples.fresh)))
     = _stats (self Examples.fresh).
Proof.
  split.
  - apply (proj1 (proj2 (stats_frame (Examples.backend 3)
                           (fun w => eq_refl)))).
  - apply (proj1 (proj2 (proj2 (stats_frame base (fun w => eq_refl))))).
Defined.

(** C9 (read before any refresh). On a driver that has just been
    constructed, whatever its configuration, [get_share_stats] with
    [refresh=False] returns no snapshot: [__init__] assigns no [_stats],
    and reading it raises AttributeError. *)
Theorem stats_uninitialized cls network_API kw_configuration tr :
  _stats (__init__ network_API kw_configuration) = None
  /\ get_share_stats cls (VBool false)
       {| self := __init__ network_API kw_configuration; events := tr |}
     = (Raise AttributeError,
        {| self := __init__ network_API kw_configuration; events := tr |}).
Proof. split; reflexivity. Qed.

(** C10 (reserved percentage). Whatever the configuration holds, and in
    particular whatever its [reserved_share_percentage], the snapshot
    that [_update_share_status] stores, which is the one
    [get_share_stats(refresh=True)] returns, has [reserved_percentage]
    0. *)
Theorem reserved_percentage_constant w c :
  configuration (self w) = Some c ->
  exists data w',
    _update_share_status w = (Return VNone, w')
    /\ _stats (self w') = Some data
    /\ get_share_stats base (VBool true) w = (Return data, w')
    /\ data !! "reserved_percentage" = Some (VInt 0).
Proof.
  intros Hc.
  destruct (update_share_status_run w c Hc) as (data & Hrun & Hkeys).
  exists data. eexists. split; [exact Hrun|]. split; [reflexivity|].
  split.
  - apply (get_share_stats_refresh _ _ _ Hrun). reflexivity.
  - apply Hkeys.
Qed.

Lemma reserved_percentage_constant_witness :
  reserved_share_percentage Examples.conf3 = 25
  /\ exists data w',
       _update_share_status Examples.fresh = (Return VNone, w')
       /\ _stats (self w') = Some data
       /\ get_share_stats base (VBool true) Examples.fresh
          = (Return data, w')
       /\ data !! "reserved_percentage" = Some (VInt 0).
Proof.
  split; [reflexivity|].
  apply (reserved_percentage_constant Examples.fresh Examples.conf3).
  reflexivity.
Defined.

End ShareDriverProperties.

(** * More on ExecuteMixin *)

Section ExecuteMixinRuns.
Local Abbreviation try_loop_turn := try_loop_unfold.
Import ExecuteMixin.

(** A run of the loop in full: the [m] invocations before the last one
    raised ProcessExecutionError below the limit, and the last one
    decides the result. *)
Lemma try_loop_run self command kwargs tries tr :
  exists m : nat,
    (forall i, (i < m)%nat ->
       _execute self command kwargs (invocations tr + i)%nat
       = Raises ProcessExecutionError)
    /\ (m = 0%nat \/
        exists c, configuration self = Some c
                  /\ tries + Z.of_nat m < num_shell_tries c)
    /\ (forall c, configuration self = Some c ->
          _execute self command kwargs (invocations tr + m)%nat
          = Raises ProcessExecutionError ->
          num_shell_tries c <= tries + Z.of_nat m + 1)
    /\ try_loop self command kwargs tries tr
       = (final_result self
            (_execute self command kwargs (invocations tr + m)%nat),
          tr ++ failed_rounds command kwargs tries m
             ++ [EvExecute command kwargs]).
Proof.
  remember (tries_left self tries) as n eqn:Hn.
  revert tries tr Hn.
  induction n as [n IH] using lt_wf_ind. intros tries tr Hn.
  pose proof (try_loop_turn self command kwargs tries tr) as Hun.
  unfold call_execute in Hun.
  assert (Hstop0 :
    (forall c, configuration self = Some c ->
       _execute self command kwargs (invocations tr)
       = Raises ProcessExecutionError ->
       num_shell_tries c <= tries + 1) ->
    try_loop self command kwargs tries tr
    = (final_result self (_execute self command kwargs (invocations tr)),
       tr ++ [EvExecute command kwargs]) ->
    exists m : nat,
      (forall i, (i < m)%nat ->
         _execute self command kwargs (invocations tr + i)%nat
         = Raises ProcessExecutionError)
      /\ (m = 0%nat \/
          exists c, configuration self = Some c
                    /\ tries + Z.of_nat m < num_shell_tries c)
      /\ (forall c, configuration self = Some c ->
            _execute self command kwargs (invocations tr + m)%nat
            = Raises ProcessExecutionError ->
            num_shell_tries c <= tries + Z.of_nat m + 1)
      /\ try_loop self command kwargs tries tr
         = (final_result self
              (_execute self command kwargs (invocations tr + m)%nat),
            tr ++ failed_rounds command kwargs tries m
               ++ [EvExecute command kwargs])).
  { intros Hlim Hrun. exists 0%nat.
    split; [intros i Hi; lia|]. split; [left; reflexivity|].
    split.
    - intros c Hc Hlast. rewrite Nat.add_0_r in Hlast.
      specialize (Hlim c Hc Hlast). lia.
    - rewrite Nat.add_0_r. exact Hrun. }
  destruct (_execute self command kwargs (invocations tr))
    as [out err|e] eqn:Hout.
  { apply Hstop0; [discriminate | exact Hun]. }
  destruct (is_ProcessExecutionError e) eqn:He.
  2:{ apply Hstop0; [|cbn; rewrite He; exact Hun].
      intros c _ [= ->]. discriminate. }
  destruct e; try discriminate.
  destruct (configuration self) as [c|] eqn:Hc.
  2:{ apply Hstop0; [discriminate | cbn; rewrite Hc; exact Hun]. }
  destruct (Z.geb_spec (tries + 1) (num_shell_tries c)) as [Hge|Hlt].
  { apply Hstop0; [|cbn; rewrite Hc; exact Hun].
    intros c' [= <-] _. lia. }
  clear Hstop0.
  edestruct (IH (tries_left self (tries + 1)))
    as (m & Hfail & Hlim & Hstop & Hrun); [|reflexivity|].
  { subst n. unfold tries_left. rewrite Hc. lia. }
  rewrite Hrun in Hun. clear Hrun.
  rewrite !invocations_app in Hun. cbn in Hun.
  exists (S m). split; [|split; [|split]].
  - intros [|i] Hi; [rewrite Nat.add_0_r; exact Hout|].
    specialize (Hfail i ltac:(lia)).
    rewrite !invocations_app in Hfail. cbn in Hfail.
    replace (invocations tr + S i)%nat
      with (invocations tr + 1 + 0 + i)%nat by lia.
    exact Hfail.
  - right. exists c. split; [reflexivity|].
    destruct Hlim as [->|(c' & [= <-] & Hlim)]; lia.
  - intros c' [= <-] Hlast.
    specialize (Hstop c eq_refl).
    rewrite !invocations_app in Hstop. cbn in Hstop.
    replace (invocations tr + S m)%nat
      with (invocations tr + 1 + 0 + m)%nat in Hlast by lia.
    specialize (Hstop Hlast). lia.
  - rewrite Hun.
    replace (invocations tr + 1 + 0 + m)%nat
      with (invocations tr + S m)%nat by lia.
    cbn [failed_rounds failed_round]. rewrite <- !app_assoc.
    reflexivity.
Qed.

Lemma total_sleep_app (tr1 tr2 : list event) :
  total_sleep (tr1 ++ tr2) = total_sleep tr1 + total_sleep tr2.
Proof.
  unfold total_sleep. rewrite sleeps_app.
  induction (sleeps tr1) as [|x l IH]; cbn; [reflexivity|].
  rewrite IH. lia.
Qed.

(** The time slept in [k] failed attempts, as a sum of squares. *)
Lemma total_sleep_failed_rounds command kwargs tries k :
  0 <= tries ->
  6 * total_sleep (failed_rounds command kwargs tries k)
  = (tries + Z.of_nat k) * (tries + Z.of_nat k + 1)
      * (2 * (tries + Z.of_nat k) + 1)
    - tries * (tries + 1) * (2 * tries + 1).
Proof.
  revert tries. induction k as [|k IH]; intros tries Htries.
  - cbn. rewrite Z.add_0_r. lia.
  - cbn [failed_rounds]. rewrite total_sleep_app, Z.mul_add_distr_l.
    rewrite IH by lia.
    unfold total_sleep, failed_round. cbn [sleeps flat_map app fold_right].
    replace (tries + 1 + Z.of_nat k) with (tries + Z.of_nat (S k)) by lia.
    nia.
Qed.

(** X1. [_try_execute] reports what the last invocation of the
    primitive did: it returns only True, and only when the last
    invocation returned; when it raises and the driver has a
    configuration, the exception is the one the last invocation raised. *)
Theorem try_execute_reports_last_invocation self command kwargs tr :
  let run := _try_execute self command kwargs tr in
  let last :=
    _execute self command kwargs (invocations (snd run) - 1)%nat in
  (forall v, fst run = Return v ->
     v = VBool true /\ exists out err, last = Returns out err)
  /\ (forall e c, fst run = Raise e -> configuration self = Some c ->
        last = Raises e).
Proof.
  cbv zeta. unfold _try_execute.
  destruct (try_loop_run self command kwargs 0 tr)
    as (m & _ & _ & _ & Hrun).
  rewrite Hrun. cbn [fst snd].
  rewrite !invocations_app, invocations_failed_rounds. cbn.
  replace (invocations tr + (m + 1) - 1)%nat
    with (invocations tr + m)%nat by lia.
  destruct (_execute self command kwargs (invocations tr + m)%nat)
    as [out err|e0]; cbn.
  - split; [|discriminate]. intros v [= <-]. eauto.
  - split.
    + intros v. destruct (is_ProcessExecutionError e0);
        [destruct (configuration self)|]; discriminate.
    + intros e c He Hc. rewrite Hc in He.
      destruct (is_ProcessExecutionError e0); congruence.
Qed.

Lemma try_execute_reports_last_invocation_witness :
  (VBool true = VBool true
   /\ exists out err,
        _execute (Examples.executor (Examples.flaky 2)) Examples.ls ∅
          (invocations
             (snd (_try_execute (Examples.executor (Examples.flaky 2))
                     Examples.ls ∅ [])) - 1)%nat
        = Returns out err)
  /\ _execute (Examples.executor (Examples.flaky_then_broken 1))
       Examples.ls ∅
       (invocations
          (snd (_try_execute
                  (Examples.executor (Examples.flaky_then_broken 1))
                  Examples.ls ∅ [])) - 1)%nat
     = Raises (OtherError "OSError").
Proof.
  split.
  - apply (proj1 (try_execute_reports_last_invocation
                    (Examples.executor (Examples.flaky 2))
                    Examples.ls ∅ []) (VBool true)).
    vm_compute. reflexivity.
  - apply (proj2 (try_execute_reports_last_invocation
                    (Examples.executor (Examples.flaky_then_broken 1))
                    Examples.ls ∅ [])
             (OtherError "OSError") Examples.conf3).
    + vm_compute. reflexivity.
    + reflexivity.
Defined.

(** X2. Whatever the primitive does, [_try_execute] invokes it at least
    once and at most [num_shell_tries] times (once, when that option is
    below 1). *)
Theorem try_execute_attempts_bounded self c command kwargs tr :
  configuration self = Some c ->
  let n := (invocations (snd (_try_execute self command kwargs tr))
            - invocations tr)%nat in
  (1 <= n)%nat /\ Z.of_nat n <= Z.max 1 (num_shell_tries c).
Proof.
  intros Hc. cbv zeta. unfold _try_execute.
  destruct (try_loop_run self command kwargs 0 tr)
    as (m & _ & Hlim & _ & Hrun).
  rewrite Hrun. cbn [snd].
  rewrite !invocations_app, invocations_failed_rounds. cbn.
  destruct Hlim as [->|(c' & Hc' & Hlim)]; [lia|].
  rewrite Hc in Hc'. injection Hc' as <-. lia.
Qed.

Lemma try_execute_attempts_bounded_witness :
  let n := (invocations
              (snd (_try_execute
                      (Examples.executor Examples.always_failing)
                      Examples.ls ∅ [])) - invocations [])%nat in
  (1 <= n)%nat /\ Z.of_nat n <= Z.max 1 (num_shell_tries Examples.conf3).
Proof.
  apply (try_execute_attempts_bounded
           (Examples.executor Examples.always_failing) Examples.conf3
           Examples.ls ∅ []).
  reflexivity.
Defined.

(** X3. With [num_shell_tries] at most 1 (zero and negative values
    included) there is no retry: one invocation, no log entry, no sleep,
    and the caller gets True or the exception of that invocation. *)
Theorem try_execute_no_retry self c command kwargs tr :
  configuration self = Some c ->
  num_shell_tries c <= 1 ->
  _try_execute self command kwargs tr
  = (match _execute self command kwargs (invocations tr) with
     | Returns _ _ => Return (VBool true)
     | Raises e => Raise e
     end,
     tr ++ [EvExecute command kwargs]).
Proof.
  intros Hc HN. unfold _try_execute.
  rewrite try_loop_turn. unfold call_execute.
  destruct (_execute self command kwargs (invocations tr)) as [?|e];
    [reflexivity|].
  destruct (is_ProcessExecutionError e); [|reflexivity].
  rewrite Hc. destruct (Z.geb_spec (0 + 1) (num_shell_tries c)); [|lia].
  reflexivity.
Qed.

Lemma try_execute_no_retry_witness :
  _try_execute
    (__init__ Examples.utils_execute (Some Examples.conf0)
       (Some Examples.always_failing)) Examples.ls ∅ []
  = (match Examples.always_failing Examples.ls ∅ (invocations []) with
     | Returns _ _ => Return (VBool true)
     | Raises e => Raise e
     end,
     [] ++ [EvExecute Examples.ls ∅]).
Proof.
  apply (try_execute_no_retry
           (__init__ Examples.utils_execute (Some Examples.conf0)
              (Some Examples.always_failing))
           Examples.conf0 Examples.ls ∅ []).
  - reflexivity.
  - cbn. lia.
Defined.

(** X4. On an executor built without a configuration, a first
    ProcessExecutionError is not retried and does not reach the caller:
    reading [num_shell_tries] fails and AttributeError is raised in its
    place, after the one invocation. Any other outcome is passed on. *)
Theorem try_execute_without_configuration self command kwargs tr :
  configuration self = None ->
  _try_execute self command kwargs tr
  = (match _execute self command kwargs (invocations tr) with
     | Returns _ _ => Return (VBool true)
     | Raises e =>
         if is_ProcessExecutionError e then Raise AttributeError
         else Raise e
     end,
     tr ++ [EvExecute command kwargs]).
Proof.
  intros Hc. unfold _try_execute.
  rewrite try_loop_turn. unfold call_execute.
  destruct (_execute self command kwargs (invocations tr)) as [?|e];
    [reflexivity|].
  destruct (is_ProcessExecutionError e); [|reflexivity].
  rewrite Hc. reflexivity.
Qed.

Lemma try_execute_without_configuration_witness :
  _try_execute (Examples.executor0 Examples.always_failing)
    Examples.ls ∅ []
  = (match _execute (Examples.executor0 Examples.always_failing)
             Examples.ls ∅ (invocations []) with
     | Returns _ _ => Return (VBool true)
     | Raises e =>
         if is_ProcessExecutionError e then Raise AttributeError
         else Raise e
     end,
     [] ++ [EvExecute Examples.ls ∅]).
Proof.
  apply (try_execute_without_configuration
           (Examples.executor0 Examples.always_failing) Examples.ls ∅ []).
  reflexivity.
Defined.

(** X5. A failure of another class ends the retries: after K <
    [num_shell_tries] ProcessExecutionErrors, an invocation that raises
    another exception makes [_try_execute] raise that exception at
    once, after K + 1 invocations and K sleeps. *)
Theorem try_execute_retry_then_fail_fast self c command kwargs tr
    (K : nat) e :
  configuration self = Some c ->
  Z.of_nat K < num_shell_tries c ->
  (forall i, (i < K)%nat ->
     _execute self command kwargs (invocations tr + i)%nat
     = Raises ProcessExecutionError) ->
  is_ProcessExecutionError e = false ->
  _execute self command kwargs (invocations tr + K)%nat = Raises e ->
  _try_execute self command kwargs tr
  = (Raise e,
     tr ++ failed_rounds command kwargs 0 K
        ++ [EvExecute command kwargs])
  /\ invocations (failed_rounds command kwargs 0 K
                  ++ [EvExecute command kwargs]) = S K
  /\ length (sleeps (failed_rounds command kwargs 0 K
                     ++ [EvExecute command kwargs])) = K.
Proof.
  intros Hc HK Hfail He Hlast. split; [|split].
  - unfold _try_execute.
    rewrite (try_loop_failed_rounds self c command kwargs K Hc)
      by (auto || lia).
    rewrite try_loop_turn. unfold call_execute.
    rewrite invocations_app, invocations_failed_rounds, Hlast, He.
    rewrite <- app_assoc. reflexivity.
  - rewrite invocations_app, invocations_failed_rounds. cbn. lia.
  - rewrite sleeps_app, sleeps_failed_rounds, length_app, length_map,
      length_seq. cbn. lia.
Qed.

Lemma try_execute_retry_then_fail_fast_witness :
  _try_execute (Examples.executor (Examples.flaky_then_broken 2))
    Examples.ls ∅ []
  = (Raise (OtherError "OSError"),
     [] ++ failed_rounds Examples.ls ∅ 0 2 ++ [EvExecute Examples.ls ∅])
  /\ invocations (failed_rounds Examples.ls ∅ 0 2
                  ++ [EvExecute Examples.ls ∅]) = 3%nat
  /\ length (sleeps (failed_rounds Examples.ls ∅ 0 2
                     ++ [EvExecute Examples.ls ∅])) = 2%nat.
Proof.
  apply (try_execute_retry_then_fail_fast
           (Examples.executor (Examples.flaky_then_broken 2))
           Examples.conf3 Examples.ls ∅ [] 2 (OtherError "OSError")).
  - reflexivity.
  - cbn. lia.
  - intros i Hi. cbn. unfold Examples.flaky_then_broken.
    destruct (Nat.ltb_spec i 2); [reflexivity | lia].
  - reflexivity.
  - reflexivity.
Defined.

(** X6. The time [_try_execute] sleeps is fixed by the number of
    invocations it makes: after m + 1 invocations it has slept
    1 + 4 + ... + m squared, that is m (m + 1) (2 m + 1) / 6, and with
    [num_shell_tries = N >= 1] never more than (N - 1) N (2 N - 1) / 6,
    whatever the primitive does. *)
Theorem try_execute_total_sleep self command kwargs tr :
  let tr' := snd (_try_execute self command kwargs tr) in
  let slept := total_sleep tr' - total_sleep tr in
  let m := Z.of_nat (invocations tr' - invocations tr) - 1 in
  6 * slept = m * (m + 1) * (2 * m + 1)
  /\ (forall c, configuration self = Some c -> 1 <= num_shell_tries c ->
        6 * slept
        <= (num_shell_tries c - 1) * num_shell_tries c
             * (2 * num_shell_tries c - 1)).
Proof.
  cbv zeta. unfold _try_execute.
  destruct (try_loop_run self command kwargs 0 tr)
    as (m & _ & Hlim & _ & Hrun).
  rewrite Hrun. cbn [snd].
  rewrite !invocations_app, invocations_failed_rounds.
  rewrite !total_sleep_app.
  pose proof (total_sleep_failed_rounds command kwargs 0 m ltac:(lia))
    as Hsum.
  change (total_sleep [EvExecute command kwargs]) with 0.
  change (invocations [EvExecute command kwargs]) with 1%nat.
  replace (Z.of_nat (invocations tr + (m + 1) - invocations tr) - 1)
    with (Z.of_nat m) by lia.
  set (s := total_sleep (failed_rounds command kwargs 0 m)) in *.
  set (k := Z.of_nat m) in *.
  assert (Hk : 0 <= k) by (subst k; lia).
  assert (Hs : 6 * s = k * (k + 1) * (2 * k + 1))
    by (rewrite Hsum; ring).
  assert (Hle : forall c, configuration self = Some c ->
                 1 <= num_shell_tries c -> k + 1 <= num_shell_tries c).
  { intros c Hc HN. subst k.
    destruct Hlim as [->|(c' & Hc' & Hlim)]; [lia|].
    rewrite Hc in Hc'. injection Hc' as <-. lia. }
  clearbody s k. clear Hsum Hrun Hlim.
  split; [nia|].
  intros c Hc HN. specialize (Hle c Hc HN).
  set (j := num_shell_tries c - 1).
  assert (Hj : k <= j) by (subst j; lia).
  assert (H2 : k * k <= j * j) by nia.
  assert (H3 : k * k * k <= j * j * j).
  { transitivity (k * k * j); [nia|]. apply Z.mul_le_mono_nonneg_r; lia. }
  replace (num_shell_tries c) with (j + 1) by (subst j; lia).
  clearbody j. nia.
Qed.

Lemma try_execute_total_sleep_witness :
  6 * (total_sleep
         (snd (_try_execute (Examples.executor Examples.always_failing)
                 Examples.ls ∅ [])) - total_sleep [])
  <= (num_shell_tries Examples.conf3 - 1) * num_shell_tries Examples.conf3
       * (2 * num_shell_tries Examples.conf3 - 1).
Proof.
  apply (proj2 (try_execute_total_sleep
                  (Examples.executor Examples.always_failing)
                  Examples.ls ∅ []) Examples.conf3).
  - reflexivity.
  - cbn. lia.
Defined.




End ExecuteMixinRuns.

(** * More on ShareDriver *)

Section ShareDriverRuns.
Import ShareDriver.

(** X8. A count given by the caller is used as it is, and
    [get_network_allocations_number] is not consulted: with a count
    other than 0, [allocate_network] makes one call to the network
    service with that count, on every driver (the base class included),
    and hands the caller what the service did, an exception of the
    service unchanged; with count 0 it does nothing at all. *)
Theorem allocate_network_explicit_count cls context share_server
    share_network k kwargs w :
  (k <> 0 ->
   allocate_network cls context share_server share_network (VInt k)
     kwargs w
   = (match Network.allocate_network_raises (network_api (self w))
              context share_server share_network
              (<["count" := VInt k]> kwargs) with
      | None => Return VNone
      | Some e => Raise e
      end,
      {| self := self w;
         events := events w
                   ++ [EvNetAllocate context share_server share_network
                         (<["count" := VInt k]> kwargs)] |}))
  /\ allocate_network cls context share_server share_network (VInt 0)
       kwargs w
     = (Return VNone, w).
Proof.
  split; [|reflexivity].
  intros Hk. unfold allocate_network, bind, ret. cbn [is_None truthy].
  destruct (Z.eqb_spec k 0) as [?|_]; [contradiction|]. cbn [negb].
  unfold call_allocate_network, bind, emit. cbn [self events].
  destruct (Network.allocate_network_raises _ _ _ _ _); reflexivity.
Qed.

Lemma allocate_network_explicit_count_witness :
  allocate_network base (VObj 1) (VObj 2) (VObj 3) (VInt 2) ∅
    Examples.fresh_failing
  = (match Network.allocate_network_raises
             (network_api (self Examples.fresh_failing))
             (VObj 1) (VObj 2) (VObj 3) (<["count" := VInt 2]> ∅) with
     | None => Return VNone
     | Some e => Raise e
     end,
     {| self := self Examples.fresh_failing;
        events := events Examples.fresh_failing
                  ++ [EvNetAllocate (VObj 1) (VObj 2) (VObj 3)
                        (<["count" := VInt 2]> ∅)] |}).
Proof.
  apply (proj1 (allocate_network_explicit_count base (VObj 1) (VObj 2)
                  (VObj 3) 2 ∅ Examples.fresh_failing)).
  lia.
Defined.

(** X9. When [get_network_allocations_number] raises, as it does on the
    base class, [allocate_network] without a count and
    [deallocate_network] raise the same exception and the network
    service is not called. *)
Theorem allocations_number_failure cls e w w1 context share_server
    share_network kwargs share_server_id :
  v_get_network_allocations_number cls w = (Raise e, w1) ->
  allocate_network cls context share_server share_network VNone kwargs w
  = (Raise e, w1)
  /\ deallocate_network cls context share_server_id w = (Raise e, w1).
Proof.
  intros Hhook. unfold allocate_network, deallocate_network, bind.
  cbn [is_None]. rewrite Hhook. split; reflexivity.
Qed.

Lemma allocations_number_failure_witness :
  allocate_network base (VObj 1) (VObj 2) (VObj 3) VNone ∅ Examples.fresh
  = (Raise NotImplementedError, Examples.fresh)
  /\ deallocate_network base (VObj 1) (VStr "srv") Examples.fresh
     = (Raise NotImplementedError, Examples.fresh).
Proof.
  apply (allocations_number_failure base NotImplementedError
           Examples.fresh Examples.fresh (VObj 1) (VObj 2) (VObj 3) ∅
           (VStr "srv")).
  reflexivity.
Defined.

(** X10. The two guards do not match when the caller gives the count:
    on a driver whose [get_network_allocations_number] returns 0,
    [allocate_network] with a count other than 0 calls the network
    service, and the [deallocate_network] that follows does not. *)
Theorem explicit_allocation_not_deallocated cls context share_server
    share_network k kwargs share_server_id w :
  allocations_number_is cls (VInt 0) ->
  k <> 0 ->
  let w1 := snd (allocate_network cls context share_server share_network
                   (VInt k) kwargs w) in
  let w2 := snd (deallocate_network cls context share_server_id w1) in
  net_calls (events w2)
  = net_calls (events w)
      ++ [EvNetAllocate context share_server share_network
            (<["count" := VInt k]> kwargs)].
Proof.
  intros Hzero Hk. cbv zeta.
  rewrite (proj1 (allocate_network_explicit_count cls context
                    share_server share_network k kwargs w) Hk).
  cbn [snd].
  match goal with
  | |- context [deallocate_network _ _ _ ?w0] =>
      destruct (Hzero w0) as (w3 & Hhook & Hnet)
  end.
  unfold deallocate_network, bind. rewrite Hhook. cbn [truthy Z.eqb negb].
  cbn [ret snd]. rewrite Hnet. cbn [events].
  rewrite net_calls_app. reflexivity.
Qed.

Lemma explicit_allocation_not_deallocated_witness :
  let w1 := snd (allocate_network (Examples.backend 0) (VObj 1) (VObj 2)
                   (VObj 3) (VInt 2) ∅ Examples.fresh) in
  let w2 := snd (deallocate_network (Examples.backend 0) (VObj 1)
                   (VStr "srv") w1) in
  net_calls (events w2)
  = net_calls (events Examples.fresh)
      ++ [EvNetAllocate (VObj 1) (VObj 2) (VObj 3)
            (<["count" := VInt 2]> ∅)].
Proof.
  apply (explicit_allocation_not_deallocated (Examples.backend 0)
           (VObj 1) (VObj 2) (VObj 3) 2 ∅ (VStr "srv") Examples.fresh).
  - intros w. exists w. split; reflexivity.
  - lia.
Defined.

(** X11. On a driver whose [get_network_allocations_number] returns an
    integer n other than 0, the life of a share server
    ([allocate_network] without a count, [setup_server],
    [teardown_server], [deallocate_network]) calls the network service
    exactly twice: the allocation with [count = n], then the
    deallocation. *)
Theorem server_lifecycle_net_calls cls n context share_server
    share_network kwargs network_info metadata server_details
    security_services share_server_id w :
  allocations_number_is cls (VInt n) ->
  n <> 0 ->
  let w1 := snd (allocate_network cls context share_server share_network
                   VNone kwargs w) in
  let w2 := snd (setup_server network_info metadata w1) in
  let w3 := snd (teardown_server server_details security_services w2) in
  let w4 := snd (deallocate_network cls context share_server_id w3) in
  net_calls (events w4)
  = net_calls (events w)
      ++ [EvNetAllocate context share_server share_network
            (<["count" := VInt n]> kwargs);
          EvNetDeallocate context share_server_id].
Proof.
  intros Hn Hnz. cbv zeta. cbn [setup_server teardown_server ret snd].
  assert (Htruthy : truthy (VInt n) = true).
  { cbn. destruct (Z.eqb_spec n 0); [contradiction | reflexivity]. }
  destruct (Hn w) as (wa & Hhook & Hnet).
  pose proof (allocate_network_after_hook cls context share_server
                share_network kwargs w (VInt n) wa Hhook) as Ha.
  rewrite Htruthy, call_allocate_network_world in Ha. rewrite Ha.
  match goal with
  | |- context [deallocate_network _ _ _ ?w0] =>
      destruct (Hn w0) as (wd & Hhook' & Hnet')
  end.
  unfold deallocate_network, bind. rewrite Hhook', Htruthy.
  pose proof (call_deallocate_network_world context share_server_id wd)
    as Hd.
  destruct (call_deallocate_network context share_server_id wd)
    as [[?|?] w5]; cbn [snd] in Hd |- *; subst w5; cbn [ret snd events];
    rewrite net_calls_app, Hnet'; cbn [events];
    rewrite net_calls_app, Hnet, <- app_assoc; reflexivity.
Qed.

Lemma server_lifecycle_net_calls_witness :
  let w1 := snd (allocate_network (Examples.backend 3) (VObj 1) (VObj 2)
                   (VObj 3) VNone ∅ Examples.fresh) in
  let w2 := snd (setup_server (VObj 4) VNone w1) in
  let w3 := snd (teardown_server (VObj 5) VNone w2) in
  let w4 := snd (deallocate_network (Examples.backend 3) (VObj 1)
                   (VStr "srv") w3) in
  net_calls (events w4)
  = net_calls (events Examples.fresh)
      ++ [EvNetAllocate (VObj 1) (VObj 2) (VObj 3)
            (<["count" := VInt 3]> ∅);
          EvNetDeallocate (VObj 1) (VStr "srv")].
Proof.
  apply (server_lifecycle_net_calls (Examples.backend 3) 3 (VObj 1)
           (VObj 2) (VObj 3) ∅ (VObj 4) VNone (VObj 5) VNone (VStr "srv")
           Examples.fresh).
  - intros w. exists w. split; reflexivity.
  - lia.
Defined.

(** X12. [deallocate_network] hands the caller what the network service
    did: once [get_network_allocations_number] has returned a true
    value, the service is called once and an exception it raises
    reaches the caller unchanged. *)
Theorem deallocate_network_outcome cls v w w1 context share_server_id :
  v_get_network_allocations_number cls w = (Return v, w1) ->
  truthy v = true ->
  deallocate_network cls context share_server_id w
  = (match Network.deallocate_network_raises (network_api (self w1))
             context share_server_id with
     | None => Return VNone
     | Some e => Raise e
     end,
     {| self := self w1;
        events := events w1 ++ [EvNetDeallocate context share_server_id]
     |}).
Proof.
  intros Hhook Hv. unfold deallocate_network, bind. rewrite Hhook, Hv.
  unfold call_deallocate_network, bind, emit, ret. cbn [self events].
  destruct (Network.deallocate_network_raises _ _ _); reflexivity.
Qed.

Lemma deallocate_network_outcome_witness :
  deallocate_network (Examples.backend 1) (VObj 1) (VStr "srv")
    Examples.fresh_failing
  = (match Network.deallocate_network_raises
             (network_api (self Examples.fresh_failing))
             (VObj 1) (VStr "srv") with
     | None => Return VNone
     | Some e => Raise e
     end,
     {| self := self Examples.fresh_failing;
        events := events Examples.fresh_failing
                  ++ [EvNetDeallocate (VObj 1) (VStr "srv")] |}).
Proof.
  apply (deallocate_network_outcome (Examples.backend 1) (VInt 1)
           Examples.fresh_failing Examples.fresh_failing (VObj 1)
           (VStr "srv"));
    reflexivity.
Defined.

(** X13. The backend name of a refreshed snapshot is the configured
    [share_backend_name], and "Generic_NFS" when the option is unset or
    is the empty string. *)
Theorem stats_backend_name w c :
  configuration (self w) = Some c ->
  exists data w',
    get_share_stats base (VBool true) w = (Return data, w')
    /\ data !! "share_backend_name"
       = Some (VStr match share_backend_name c with
                    | Some s => if String.eqb s "" then "Generic_NFS" else s
                    | None => "Generic_NFS"
                    end).
Proof.
  intros Hc.
  destruct (update_share_status_run w c Hc) as (data & Hrun & Hbn & _).
  exists data. eexists. split.
  - apply (get_share_stats_refresh _ _ _ Hrun). reflexivity.
  - rewrite Hbn. unfold py_or.
    destruct (share_backend_name c) as [s|]; [|reflexivity].
    cbn. destruct (String.eqb s ""); reflexivity.
Qed.

Lemma stats_backend_name_witness :
  (exists data w',
     get_share_stats base (VBool true) Examples.fresh1 = (Return data, w')
     /\ data !! "share_backend_name" = Some (VStr "nas1"))
  /\ (exists data w',
        get_share_stats base (VBool true) Examples.fresh0
        = (Return data, w')
        /\ data !! "share_backend_name" = Some (VStr "Generic_NFS")).
Proof.
  split.
  - apply (stats_backend_name Examples.fresh1 Examples.conf1).
    reflexivity.
  - apply (stats_backend_name Examples.fresh0 Examples.conf0).
    reflexivity.
Defined.

(** X14. A refresh on a driver built without a configuration fails:
    [get_share_stats(refresh=True)] raises AttributeError after the
    debug log entry, and [_stats] is left as it was, so that a snapshot
    stored earlier is still what [get_share_stats(refresh=False)]
    returns. *)
Theorem stats_refresh_without_configuration w :
  configuration (self w) = None ->
  let w' := {| self := self w;
               events := events w
                         ++ [EvLogDebug "Updating share status"] |} in
  get_share_stats base (VBool true) w = (Raise AttributeError, w')
  /\ fst (get_share_stats base (VBool false) w')
     = fst (get_share_stats base (VBool false) w).
Proof.
  intros Hc. cbv zeta. split.
  - unfold get_share_stats, bind. cbn [truthy base v_update_share_status].
    unfold _update_share_status, bind, emit, configuration_safe_get.
    cbn [self events]. rewrite Hc. reflexivity.
  - unfold get_share_stats, bind, read_stats, ret. cbn [truthy self].
    destruct (_stats (self w)); reflexivity.
Qed.

Lemma stats_refresh_without_configuration_witness :
  let w' := {| self := self Examples.bare;
               events := events Examples.bare
                         ++ [EvLogDebug "Updating share status"] |} in
  get_share_stats base (VBool true) Examples.bare
  = (Raise AttributeError, w')
  /\ fst (get_share_stats base (VBool false) w')
     = fst (get_share_stats base (VBool false) Examples.bare).
Proof.
  apply (stats_refresh_without_configuration Examples.bare).
  reflexivity.
Defined.

(** The snapshot a refresh stores depends on the configuration only. *)
Lemma update_share_status_stores w c :
  configuration (self w) = Some c ->
  exists data,
    (forall w0, configuration (self w0) = Some c ->
       _update_share_status w0
       = (Return VNone,
          {| self := {| configuration := configuration (self w0);
                        network_api := network_api (self w0);
                        _stats := Some data |};
             events := events w0
                       ++ [EvLogDebug "Updating share status"] |}))
    /\ dom data
       = ({[ "share_backend_name"; "vendor_name"; "driver_version";
             "storage_protocol"; "total_capacity_gb"; "free_capacity_gb";
             "reserved_percentage"; "QoS_support" ]} : gset string).
Proof.
  intros _. eexists. split.
  - intros w0 Hc0.
    unfold _update_share_status, bind, emit, configuration_safe_get,
      write_stats, ret.
    destruct w0 as [[cf api st] ev]. cbn in Hc0 |- *. subst cf.
    reflexivity.
  - rewrite !dom_insert_L, dom_empty_L. set_solver.
Qed.

(** X15. After a refresh, reading gives the snapshot back: on a driver
    with a configuration, [get_share_stats(refresh=True)] returns a
    snapshot that every later [get_share_stats(refresh=False)] returns
    as well, and a second refresh returns the same snapshot again. The
    refresh changes [_stats] only, logs one debug entry and makes no
    call to the network service. *)
Theorem stats_refresh_then_read w c cls :
  configuration (self w) = Some c ->
  exists data w',
    get_share_stats base (VBool true) w = (Return data, w')
    /\ get_share_stats cls (VBool false) w' = (Return data, w')
    /\ fst (get_share_stats base (VBool true) w') = Return data
    /\ configuration (self w') = configuration (self w)
    /\ network_api (self w') = network_api (self w)
    /\ events w' = events w ++ [EvLogDebug "Updating share status"].
Proof.
  intros Hc.
  destruct (update_share_status_stores w c Hc) as (data & Hrun & _).
  exists data. eexists.
  split; [apply (get_share_stats_refresh _ _ _ (Hrun w Hc));
          reflexivity|].
  split; [reflexivity|].
  split; [|repeat split].
  erewrite get_share_stats_refresh; [reflexivity | apply Hrun; exact Hc
                                    | reflexivity].
Qed.

Lemma stats_refresh_then_read_witness :
  exists data w',
    get_share_stats base (VBool true) Examples.fresh = (Return data, w')
    /\ get_share_stats (Examples.backend 3) (VBool false) w'
       = (Return data, w')
    /\ fst (get_share_stats base (VBool true) w') = Return data
    /\ configuration (self w') = configuration (self Examples.fresh)
    /\ network_api (self w') = network_api (self Examples.fresh)
    /\ events w'
       = events Examples.fresh ++ [EvLogDebug "Updating share status"].
Proof.
  apply (stats_refresh_then_read Examples.fresh Examples.conf3
           (Examples.backend 3)).
  reflexivity.
Defined.

(** X16. A refreshed snapshot has the eight keys the routine assigns
    and no other; looking any other key up finds nothing. *)
Theorem stats_keys w c :
  configuration (self w) = Some c ->
  exists data w',
    get_share_stats base (VBool true) w = (Return data, w')
    /\ dom data
       = ({[ "share_backend_name"; "vendor_name"; "driver_version";
             "storage_protocol"; "total_capacity_gb"; "free_capacity_gb";
             "reserved_percentage"; "QoS_support" ]} : gset string)
    /\ data !! "reserved_share_percentage" = None.
Proof.
  intros Hc.
  destruct (update_share_status_stores w c Hc) as (data & Hrun & Hdom).
  exists data. eexists.
  split; [apply (get_share_stats_refresh _ _ _ (Hrun w Hc));
          reflexivity|].
  split; [exact Hdom|].
  apply not_elem_of_dom. rewrite Hdom. clear.
  rewrite !not_elem_of_union, !not_elem_of_singleton.
  repeat split; discriminate.
Qed.

Lemma stats_keys_witness :
  exists data w',
    get_share_stats base (VBool true) Examples.fresh = (Return data, w')
    /\ dom data
       = ({[ "share_backend_name"; "vendor_name"; "driver_version";
             "storage_protocol"; "total_capacity_gb"; "free_capacity_gb";
             "reserved_percentage"; "QoS_support" ]} : gset string)
    /\ data !! "reserved_share_percentage" = None.
Proof.
  apply (stats_keys Examples.fresh Examples.conf3). reflexivity.
Defined.

(** X17. [__init__] builds the network service for the group named by
    [network_config_group]; when that option is unset or empty it uses
    the configuration's own [config_group], and None when the driver is
    built without a configuration. The configuration is stored as
    given. *)
Theorem init_network_config_group network_API kw_configuration :
  network_api (__init__ network_API kw_configuration)
  = network_API
      match kw_configuration with
      | None => VNone
      | Some c =>
          match network_config_group c with
          | Some s =>
              if String.eqb s "" then of_opt_str (config_group c)
              else VStr s
          | None => of_opt_str (config_group c)
          end
      end
  /\ configuration (__init__ network_API kw_configuration)
     = kw_configuration.
Proof.
  split; [|reflexivity].
  unfold __init__. cbn [network_api]. f_equal.
  destruct kw_configuration as [c|]; [|reflexivity].
  unfold py_or. destruct (network_config_group c) as [s|]; [|reflexivity].
  cbn. destruct (String.eqb s ""); reflexivity.
Qed.

End ShareDriverRuns.
